(** * docs/sphinx/conf.py: the Sphinx build configuration of the Python
      Elasticsearch client, as a program over an explicit build environment.

    The file is a Python module that Sphinx executes once.  Its body is a
    sequence of [import] statements and assignments; two right-hand sides
    read the outside world: [datetime.date.today().year] (the clock) and
    [elasticsearch.__versionstr__] (the installed library).  The module is
    embedded as a state-and-exception computation over its own namespace,
    parametrised by a [build_env] that stands for the clock and for the
    packages that can be imported. *)

From Stdlib Require Import ZArith String Ascii DecimalString DecimalZ DecimalPos.
From stdpp Require Import gmap strings list fin_maps.

Set Warnings "-register-all".
Local Open Scope string_scope.

(** ** The fragment of Python the file uses *)

Module Py.

(** Python objects that occur in the file: [None], integers, strings,
    list displays, tuple displays, dict displays with string keys, module
    objects, the class [datetime.date] and its instances. *)
Record date : Type := Date { year : Z; month : Z; day : Z }.

Inductive value : Type :=
| VNone
| VInt (z : Z)
| VStr (s : string)
| VList (l : list value)
| VTuple (l : list value)
| VDict (d : gmap string value)
| VModule (name : string)
| VType (name : string)
| VDate (d : date).

(** The exceptions the statements of the file can raise. *)
Inductive exn : Type :=
| ModuleNotFoundError (name : string)
| AttributeError (attr : string)
| NameError (name : string)
| TypeError (msg : string)
| ValueError (msg : string).

(** What the build machine provides: today's date, and for every
    importable third-party module its attributes. *)
Record build_env : Type := BuildEnv {
  today : date;
  site_packages : gmap string (gmap string value)
}.

(** Modules of the standard library used by the file; they can always be
    imported. *)
Definition stdlib_modules : list string := ["datetime"].

(** A statement or expression runs in the module namespace and either
    raises or returns a result together with the updated namespace. *)
Definition Exec (A : Type) : Type :=
  gmap string value → exn + (A * gmap string value).

Definition ret {A} (a : A) : Exec A := λ ns, inr (a, ns).

Definition raise {A} (e : exn) : Exec A := λ _, inl e.

Definition bind {A B} (m : Exec A) (k : A → Exec B) : Exec B :=
  λ ns, match m ns with
        | inl e => inl e
        | inr (a, ns') => k a ns'
        end.

Definition lift {A} (r : exn + A) : Exec A :=
  match r with
  | inl e => raise e
  | inr a => ret a
  end.

(** [x = e] at module level. *)
Definition assign (x : string) (e : Exec value) : Exec unit :=
  λ ns, match e ns with
        | inl err => inl err
        | inr (v, ns') => inr (tt, <[x := v]> ns')
        end.

(** A name used as an expression. *)
Definition load (x : string) : Exec value :=
  λ ns, match ns !! x with
        | Some v => inr (v, ns)
        | None => inl (NameError x)
        end.

(** [import m]: binds the name [m] to the module object, or raises when
    the module is neither in the standard library nor installed. *)
Definition import_ (env : build_env) (m : string) : Exec unit :=
  if bool_decide (m ∈ stdlib_modules) then assign m (ret (VModule m))
  else match site_packages env !! m with
       | Some _ => assign m (ret (VModule m))
       | None => raise (ModuleNotFoundError m)
       end.

(** [o.a] *)
Definition getattr (env : build_env) (o : value) (a : string) : exn + value :=
  match o with
  | VModule m =>
      if String.eqb m "datetime" then
        if String.eqb a "date" then inr (VType "datetime.date")
        else inl (AttributeError a)
      else match site_packages env !! m ≫= (λ attrs, attrs !! a) with
           | Some v => inr v
           | None => inl (AttributeError a)
           end
  | VDate d =>
      if String.eqb a "year" then inr (VInt (year d))
      else if String.eqb a "month" then inr (VInt (month d))
      else if String.eqb a "day" then inr (VInt (day d))
      else inl (AttributeError a)
  | _ => inl (AttributeError a)
  end.

(** [o.f()] for the one method the file calls, [datetime.date.today]. *)
Definition call_method0 (env : build_env) (o : value) (f : string) : exn + value :=
  match o with
  | VType c =>
      if String.eqb c "datetime.date" && String.eqb f "today"
      then inr (VDate (today env))
      else inl (AttributeError f)
  | _ => inl (AttributeError f)
  end.

(** The decimal numeral of an integer, as [%d] and [str] print it: a
    minus sign for negative numbers, no padding, ["0"] for zero. *)
Definition decimal (z : Z) : string := NilZero.string_of_int (Z.to_int z).

(** Reading a decimal numeral back. *)
Definition parse_decimal (s : string) : option Z :=
  Z.of_int <$> NilZero.int_of_string s.

(** [fmt % arg] for a single argument that is not a tuple, with the
    conversions [%d] and [%%].  [arg] is [Some v] while the argument has
    not been consumed. *)
Fixpoint format_percent (fmt : string) (arg : option value) : exn + string :=
  match fmt with
  | EmptyString =>
      match arg with
      | Some _ => inl (TypeError "not all arguments converted during string formatting")
      | None => inr EmptyString
      end
  | String c rest =>
      if Ascii.eqb c "%" then
        match rest with
        | EmptyString => inl (ValueError "incomplete format")
        | String k rest' =>
            if Ascii.eqb k "%" then
              match format_percent rest' arg with
              | inl e => inl e
              | inr s => inr (String "%" s)
              end
            else if Ascii.eqb k "d" then
              match arg with
              | Some (VInt z) =>
                  match format_percent rest' None with
                  | inl e => inl e
                  | inr s => inr (decimal z ++ s)
                  end
              | Some _ => inl (TypeError "%d format: a real number is required")
              | None => inl (TypeError "not enough arguments for format string")
              end
            else inl (ValueError "unsupported format character")
        end
      else
        match format_percent rest arg with
        | inl e => inl e
        | inr s => inr (String c s)
        end
  end.

(** The binary operator [%] with a string on the left. *)
Definition binop_mod (l r : value) : exn + value :=
  match l with
  | VStr fmt =>
      match format_percent fmt (Some r) with
      | inl e => inl e
      | inr s => inr (VStr s)
      end
  | _ => inl (TypeError "unsupported operand type(s) for %")
  end.

(** A dict display [{k1: v1, ..., kn: vn}]: the items are stored from left
    to right, a later item replacing an earlier one with the same key. *)
Definition dict_display (items : list (string * value)) : gmap string value :=
  foldl (λ d kv, <[kv.1 := kv.2]> d) ∅ items.

(** [needle in hay] on strings. *)
Fixpoint str_contains (needle hay : string) : bool :=
  String.prefix needle hay ||
  match hay with
  | EmptyString => false
  | String _ hay' => str_contains needle hay'
  end.

(** [needle] occurs in [hay]. *)
Definition substring_of (needle hay : string) : Prop :=
  ∃ pre post, hay = pre ++ needle ++ post.

End Py.

Import Py.

Notation "'let*' x := m 'in' k" := (bind m (λ x, k))
  (at level 10, x name, m at level 100, k at level 200, only parsing).
Notation "m >> k" := (bind m (λ _, k))
  (at level 100, k at level 200, right associativity, only parsing).

(** ** The module body *)

Module Conf.

(** The right-hand sides that are literals. *)
Definition extensions : value :=
  VList [VStr "sphinx.ext.autodoc"; VStr "sphinx.ext.doctest"; VStr "sphinx.ext.intersphinx"].
Definition autoclass_content : value := VStr "both".
Definition autodoc_typehints : value := VStr "description".
Definition templates_path : value := VList [VStr "_templates"].
Definition source_suffix : value := VStr ".rst".
Definition master_doc : value := VStr "index".
Definition project : value := VStr "Python Elasticsearch client".
Definition pygments_style : value := VStr "sphinx".
Definition html_theme : value := VStr "sphinx_rtd_theme".
Definition html_static_path : value := VList [VStr "_static"].
Definition html_css_files : value := VList [VStr "css/custom.css"].
Definition intersphinx_mapping : value :=
  VDict (dict_display
    [("python", VTuple [VStr "https://docs.python.org/3"; VNone]);
     ("elastic-transport",
      VTuple [VStr "https://elastic-transport-python.readthedocs.io/en/latest"; VNone])]).

(** ["%d, Elasticsearch B.V" % datetime.date.today().year] *)
Definition copyright (env : build_env) : Exec value :=
  let* m := load "datetime" in
  let* c := lift (getattr env m "date") in
  let* d := lift (call_method0 env c "today") in
  let* y := lift (getattr env d "year") in
  lift (binop_mod (VStr "%d, Elasticsearch B.V") y).

(** [elasticsearch.__versionstr__] *)
Definition version (env : build_env) : Exec value :=
  let* m := load "elasticsearch" in
  lift (getattr env m "__versionstr__").

(** [version], read back from the namespace. *)
Definition release : Exec value := load "version".

(** The statements of the file, in order. *)
Definition conf (env : build_env) : Exec unit :=
  import_ env "datetime" >>
  import_ env "elasticsearch" >>
  assign "extensions" (ret extensions) >>
  assign "autoclass_content" (ret autoclass_content) >>
  assign "autodoc_typehints" (ret autodoc_typehints) >>
  assign "templates_path" (ret templates_path) >>
  assign "source_suffix" (ret source_suffix) >>
  assign "master_doc" (ret master_doc) >>
  assign "project" (ret project) >>
  assign "copyright" (copyright env) >>
  assign "version" (version env) >>
  assign "release" release >>
  assign "pygments_style" (ret pygments_style) >>
  assign "html_theme" (ret html_theme) >>
  assign "html_static_path" (ret html_static_path) >>
  assign "html_css_files" (ret html_css_files) >>
  assign "intersphinx_mapping" (ret intersphinx_mapping).

(** Executing the file in a fresh namespace: the exception that escapes,
    or the namespace Sphinx reads its settings from. *)
Definition exec_conf (env : build_env) : exn + gmap string value :=
  match conf env ∅ with
  | inl e => inl e
  | inr (_, ns) => inr ns
  end.

(** The names the file assigns. *)
Definition declared : list string :=
  ["extensions"; "autoclass_content"; "autodoc_typehints"; "templates_path";
   "source_suffix"; "master_doc"; "project"; "copyright"; "version"; "release";
   "pygments_style"; "html_theme"; "html_static_path"; "html_css_files";
   "intersphinx_mapping"].

(** The value of [elasticsearch.__versionstr__] on the build machine, if
    the package is installed and has the attribute. *)
Definition versionstr (env : build_env) : option value :=
  site_packages env !! "elasticsearch" ≫= (λ attrs, attrs !! "__versionstr__").

(** Build machines used in examples. *)
Definition env_with (y : Z) (v : string) : build_env :=
  BuildEnv (Date y 11 4) {[ "elasticsearch" := {[ "__versionstr__" := VStr v ]} ]}.
Definition env_without_package (y : Z) : build_env :=
  BuildEnv (Date y 11 4) ∅.
Definition env_without_attr (y : Z) : build_env :=
  BuildEnv (Date y 11 4) {[ "elasticsearch" := {[ "__version__" := VTuple [VInt 9; VInt 0; VInt 0] ]} ]}.

End Conf.

Import Conf.

(** The namespace the file leaves behind when the year is [y] and the
    library's version attribute is [v]. *)
Definition final_ns (y : Z) (v : value) : gmap string value :=
  <["intersphinx_mapping" := intersphinx_mapping]>
  (<["html_css_files" := html_css_files]>
  (<["html_static_path" := html_static_path]>
  (<["html_theme" := html_theme]>
  (<["pygments_style" := pygments_style]>
  (<["release" := v]>
  (<["version" := v]>
  (<["copyright" := VStr (decimal y ++ ", Elasticsearch B.V")]>
  (<["project" := project]>
  (<["master_doc" := master_doc]>
  (<["source_suffix" := source_suffix]>
  (<["templates_path" := templates_path]>
  (<["autodoc_typehints" := autodoc_typehints]>
  (<["autoclass_content" := autoclass_content]>
  (<["extensions" := extensions]>
  (<["elasticsearch" := VModule "elasticsearch"]>
  (<["datetime" := VModule "datetime"]> ∅)))))))))))))))).

(** Reading a name of the final namespace. *)
Ltac read_final := unfold final_ns; by simplify_map_eq.

(** ** Steps of the monad *)

Section Steps.
Context {A B : Type}.

Lemma bind_inr (m : Exec A) (k : A → Exec B) ns a ns' :
  m ns = inr (a, ns') → bind m k ns = k a ns'.
Proof. unfold bind. by intros ->. Qed.

Lemma bind_inl (m : Exec A) (k : A → Exec B) ns e :
  m ns = inl e → bind m k ns = inl e.
Proof. unfold bind. by intros ->. Qed.

Lemma lift_inr (a : A) ns : lift (inr a) ns = inr (a, ns).
Proof. done. Qed.
End Steps.

Lemma assign_inr x e ns v ns' :
  e ns = inr (v, ns') → assign x e ns = inr (tt, <[x := v]> ns').
Proof. unfold assign. by intros ->. Qed.

Lemma assign_ret x v ns : assign x (ret v) ns = inr (tt, <[x := v]> ns).
Proof. done. Qed.

Lemma load_Some x ns v : ns !! x = Some v → load x ns = inr (v, ns).
Proof. unfold load. by intros ->. Qed.

Lemma datetime_is_stdlib : "datetime" ∈ stdlib_modules.
Proof. by apply list_elem_of_singleton. Qed.

Lemma elasticsearch_not_stdlib : "elasticsearch" ∉ stdlib_modules.
Proof. intros H. by apply list_elem_of_singleton in H. Qed.

Lemma import_stdlib env m ns :
  m ∈ stdlib_modules → import_ env m ns = inr (tt, <[m := VModule m]> ns).
Proof. intros Hm. unfold import_. by rewrite bool_decide_eq_true_2. Qed.

Lemma import_installed env m attrs ns :
  site_packages env !! m = Some attrs →
  import_ env m ns = inr (tt, <[m := VModule m]> ns).
Proof. intros Hm. unfold import_. rewrite Hm. by case_bool_decide. Qed.

Lemma import_missing env m ns :
  m ∉ stdlib_modules → site_packages env !! m = None →
  import_ env m ns = inl (ModuleNotFoundError m).
Proof.
  intros Hstd Hm. unfold import_. rewrite bool_decide_eq_false_2 by done.
  by rewrite Hm.
Qed.

(** ** The decimal numeral *)

Lemma to_int_proper z :
  Z.to_int z ≠ Decimal.Pos Decimal.Nil ∧ Z.to_int z ≠ Decimal.Neg Decimal.Nil.
Proof.
  destruct z as [|p|p]; simpl; split; try discriminate;
    intros [= H]; by apply DecimalPos.Unsigned.to_uint_nonnil in H.
Qed.

(** [decimal] really is the decimal numeral: reading it back gives the
    number. *)
Lemma parse_decimal_decimal z : parse_decimal (decimal z) = Some z.
Proof.
  unfold parse_decimal, decimal.
  destruct (to_int_proper z) as [Hp Hn].
  rewrite NilZero.isi by done. simpl. by rewrite DecimalZ.of_to.
Qed.

Lemma decimal_inj y z : decimal y = decimal z → y = z.
Proof.
  intros H. apply (f_equal parse_decimal) in H.
  rewrite !parse_decimal_decimal in H. by injection H.
Qed.

(** ** Substrings *)

Lemma prefix_app needle post : String.prefix needle (needle ++ post) = true.
Proof.
  induction needle as [|c needle IH]; simpl.
  - by destruct post.
  - destruct (ascii_dec c c); [apply IH | done].
Qed.

Lemma prefix_inv needle hay :
  String.prefix needle hay = true → ∃ post, hay = needle ++ post.
Proof.
  revert hay. induction needle as [|c needle IH]; intros hay H.
  - by exists hay.
  - destruct hay as [|c' hay]; simpl in H; [done|].
    destruct (ascii_dec c c') as [->|]; [|done].
    destruct (IH _ H) as [post ->]. by exists post.
Qed.

Lemma str_contains_spec needle hay :
  str_contains needle hay = true ↔ substring_of needle hay.
Proof.
  split.
  - induction hay as [|c hay IH]; cbn [str_contains]; intros H.
    + rewrite orb_false_r in H. destruct (prefix_inv _ _ H) as [post ->].
      by exists EmptyString, post.
    + apply orb_true_iff in H as [H|H].
      * destruct (prefix_inv _ _ H) as [post Hpost].
        exists EmptyString, post. by rewrite Hpost.
      * destruct (IH H) as (pre & post & ->). by exists (String c pre), post.
  - intros (pre & post & ->). induction pre as [|c pre IH].
    + change (EmptyString ++ needle ++ post) with (needle ++ post).
      destruct (needle ++ post) eqn:E; cbn [str_contains];
        rewrite <- E, prefix_app; done.
    + change (String c pre ++ needle ++ post)
        with (String c (pre ++ needle ++ post)).
      cbn [str_contains]. rewrite IH. apply orb_true_r.
Qed.

(** ** The right-hand sides that read the environment *)

Lemma format_copyright y :
  format_percent "%d, Elasticsearch B.V" (Some (VInt y))
  = inr (decimal y ++ ", Elasticsearch B.V").
Proof. reflexivity. Qed.

Lemma copyright_eval env ns :
  ns !! "datetime" = Some (VModule "datetime") →
  copyright env ns
  = inr (VStr (decimal (year (today env)) ++ ", Elasticsearch B.V"), ns).
Proof.
  intros Hdt. unfold copyright.
  rewrite (bind_inr _ _ _ _ _ (load_Some _ _ _ Hdt)).
  reflexivity.
Qed.

Lemma version_eval env ns v :
  ns !! "elasticsearch" = Some (VModule "elasticsearch") →
  versionstr env = Some v →
  version env ns = inr (v, ns).
Proof.
  intros Hes Hv. unfold version.
  rewrite (bind_inr _ _ _ _ _ (load_Some _ _ _ Hes)).
  unfold getattr, versionstr in *. simpl. by rewrite Hv.
Qed.

Lemma version_missing env ns :
  ns !! "elasticsearch" = Some (VModule "elasticsearch") →
  versionstr env = None →
  version env ns = inl (AttributeError "__versionstr__").
Proof.
  intros Hes Hv. unfold version.
  rewrite (bind_inr _ _ _ _ _ (load_Some _ _ _ Hes)).
  unfold getattr, versionstr in *. simpl. by rewrite Hv.
Qed.

Lemma release_eval ns v : ns !! "version" = Some v → release ns = inr (v, ns).
Proof. apply load_Some. Qed.

Lemma versionstr_installed env v :
  versionstr env = Some v → is_Some (site_packages env !! "elasticsearch").
Proof.
  unfold versionstr. destruct (site_packages env !! "elasticsearch"); [eauto|done].
Qed.

(** ** Running the file *)

Lemma exec_conf_success env v :
  versionstr env = Some v →
  exec_conf env = inr (final_ns (year (today env)) v).
Proof.
  intros Hv. destruct (versionstr_installed _ _ Hv) as [attrs Hpkg].
  unfold exec_conf, conf.
  rewrite (bind_inr _ _ _ _ _ (import_stdlib env "datetime" _ datetime_is_stdlib)).
  rewrite (bind_inr _ _ _ _ _ (import_installed env "elasticsearch" _ _ Hpkg)).
  do 7 (erewrite bind_inr; [|apply assign_ret]).
  erewrite bind_inr; [|apply assign_inr, copyright_eval; by simplify_map_eq].
  erewrite bind_inr; [|apply assign_inr, version_eval; [by simplify_map_eq|done]].
  erewrite bind_inr; [|apply assign_inr, release_eval; by simplify_map_eq].
  do 4 (erewrite bind_inr; [|apply assign_ret]).
  rewrite assign_ret. reflexivity.
Qed.

Lemma exec_conf_no_package env :
  site_packages env !! "elasticsearch" = None →
  exec_conf env = inl (ModuleNotFoundError "elasticsearch").
Proof.
  intros Hpkg. unfold exec_conf, conf.
  rewrite (bind_inr _ _ _ _ _ (import_stdlib env "datetime" _ datetime_is_stdlib)).
  erewrite bind_inl; [done|].
  apply import_missing; [apply elasticsearch_not_stdlib|done].
Qed.

Lemma exec_conf_no_attr env attrs :
  site_packages env !! "elasticsearch" = Some attrs →
  attrs !! "__versionstr__" = None →
  exec_conf env = inl (AttributeError "__versionstr__").
Proof.
  intros Hpkg Hattr.
  assert (versionstr env = None) as Hv by (unfold versionstr; by rewrite Hpkg).
  unfold exec_conf, conf.
  rewrite (bind_inr _ _ _ _ _ (import_stdlib env "datetime" _ datetime_is_stdlib)).
  rewrite (bind_inr _ _ _ _ _ (import_installed env "elasticsearch" _ _ Hpkg)).
  do 7 (erewrite bind_inr; [|apply assign_ret]).
  erewrite bind_inr; [|apply assign_inr, copyright_eval; by simplify_map_eq].
  erewrite bind_inl; [done|].
  unfold assign. erewrite version_missing; [done| |done]. by simplify_map_eq.
Qed.

Lemma exec_conf_failure env :
  versionstr env = None →
  exec_conf env = inl (ModuleNotFoundError "elasticsearch")
  ∨ exec_conf env = inl (AttributeError "__versionstr__").
Proof.
  intros Hv. destruct (site_packages env !! "elasticsearch") as [attrs|] eqn:Hpkg.
  - right. apply (exec_conf_no_attr _ attrs); [done|].
    unfold versionstr in Hv. by rewrite Hpkg in Hv.
  - left. by apply exec_conf_no_package.
Qed.

Lemma intersphinx_items :
  dict_display
    [("python", VTuple [VStr "https://docs.python.org/3"; VNone]);
     ("elastic-transport",
      VTuple [VStr "https://elastic-transport-python.readthedocs.io/en/latest"; VNone])]
  = <["elastic-transport" :=
        VTuple [VStr "https://elastic-transport-python.readthedocs.io/en/latest"; VNone]]>
    (<["python" := VTuple [VStr "https://docs.python.org/3"; VNone]]> ∅).
Proof. reflexivity. Qed.

(** ** The file on concrete build machines *)

Example format_percent_escape :
  format_percent "100%% of %d" (Some (VInt 7)) = inr "100% of 7".
Proof. reflexivity. Qed.

Example format_percent_unused_argument :
  format_percent "Elasticsearch B.V" (Some (VInt 2026))
  = inl (TypeError "not all arguments converted during string formatting").
Proof. reflexivity. Qed.

Example format_percent_not_an_int :
  binop_mod (VStr "%d, Elasticsearch B.V") (VStr "2026")
  = inl (TypeError "%d format: a real number is required").
Proof. reflexivity. Qed.

Example str_contains_year :
  str_contains "2026" "2026, Elasticsearch B.V" = true
  ∧ str_contains "2025" "2026, Elasticsearch B.V" = false.
Proof. split; reflexivity. Qed.

Example exec_conf_2026 :
  exec_conf (env_with 2026 "9.0.0") = inr (final_ns 2026 (VStr "9.0.0")).
Proof. by apply exec_conf_success. Qed.

Example exec_conf_not_installed :
  exec_conf (env_without_package 2026) = inl (ModuleNotFoundError "elasticsearch").
Proof. by apply exec_conf_no_package. Qed.

Example exec_conf_old_package :
  exec_conf (env_without_attr 2026) = inl (AttributeError "__versionstr__").
Proof. by eapply exec_conf_no_attr. Qed.

(** ** The properties of the configuration *)

(** C1: whenever the library exposes a version attribute [v], the file runs
    to completion and both [version] and [release] are [v], whatever [v]
    is. *)
Theorem version_release_are_versionstr env v :
  versionstr env = Some v →
  ∃ ns, exec_conf env = inr ns ∧ ns !! "version" = Some v ∧ ns !! "release" = Some v.
Proof.
  intros Hv. eexists. split; [by apply exec_conf_success|]. split; read_final.
Qed.

Lemma version_release_are_versionstr_witness :
  versionstr (env_with 2026 "9.0.0") = Some (VStr "9.0.0") ∧
  ∃ ns, exec_conf (env_with 2026 "9.0.0") = inr ns
        ∧ ns !! "version" = Some (VStr "9.0.0")
        ∧ ns !! "release" = Some (VStr "9.0.0").
Proof.
  split; [reflexivity|].
  apply (version_release_are_versionstr (env_with 2026 "9.0.0") (VStr "9.0.0")).
  reflexivity.
Defined.

(** C2: for every build date, the copyright string the file produces
    contains the decimal numeral of the year of that date. *)
Theorem copyright_contains_year env v :
  versionstr env = Some v →
  ∃ ns s, exec_conf env = inr ns
          ∧ ns !! "copyright" = Some (VStr s)
          ∧ substring_of (decimal (year (today env))) s.
Proof.
  intros Hv. eexists _, _. split; [by apply exec_conf_success|].
  split; [read_final|]. by exists EmptyString, ", Elasticsearch B.V".
Qed.

Lemma copyright_contains_year_witness :
  versionstr (env_with 2026 "9.0.0") = Some (VStr "9.0.0") ∧
  ∃ ns s, exec_conf (env_with 2026 "9.0.0") = inr ns
          ∧ ns !! "copyright" = Some (VStr s)
          ∧ substring_of (decimal (year (today (env_with 2026 "9.0.0")))) s.
Proof.
  split; [reflexivity|].
  apply (copyright_contains_year (env_with 2026 "9.0.0") (VStr "9.0.0")).
  reflexivity.
Defined.

(** C3: the cross-reference mapping has exactly the two keys ["python"]
    and ["elastic-transport"], each mapped to its URL paired with [None]. *)
Theorem intersphinx_mapping_exact env v :
  versionstr env = Some v →
  ∃ ns d, exec_conf env = inr ns
          ∧ ns !! "intersphinx_mapping" = Some (VDict d)
          ∧ d !! "python" = Some (VTuple [VStr "https://docs.python.org/3"; VNone])
          ∧ d !! "elastic-transport"
            = Some (VTuple [VStr "https://elastic-transport-python.readthedocs.io/en/latest";
                            VNone])
          ∧ dom d = {["python"; "elastic-transport"]}
          ∧ size d = 2.
Proof.
  intros Hv. eexists _, _. split; [by apply exec_conf_success|].
  split; [read_final|]. rewrite intersphinx_items.
  split; [by simplify_map_eq|]. split; [by simplify_map_eq|]. split.
  - rewrite !dom_insert_L, dom_empty_L. set_solver.
  - rewrite !map_size_insert_None by by simplify_map_eq. by rewrite map_size_empty.
Qed.

Lemma intersphinx_mapping_exact_witness :
  versionstr (env_with 2026 "9.0.0") = Some (VStr "9.0.0") ∧
  ∃ ns d, exec_conf (env_with 2026 "9.0.0") = inr ns
          ∧ ns !! "intersphinx_mapping" = Some (VDict d)
          ∧ d !! "python" = Some (VTuple [VStr "https://docs.python.org/3"; VNone])
          ∧ d !! "elastic-transport"
            = Some (VTuple [VStr "https://elastic-transport-python.readthedocs.io/en/latest";
                            VNone])
          ∧ dom d = {["python"; "elastic-transport"]}
          ∧ size d = 2.
Proof.
  split; [reflexivity|].
  apply (intersphinx_mapping_exact (env_with 2026 "9.0.0") (VStr "9.0.0")).
  reflexivity.
Defined.

(** C4: the extensions list names exactly autodoc, doctest and intersphinx,
    in that order. *)
Theorem extensions_exact env v :
  versionstr env = Some v →
  ∃ ns, exec_conf env = inr ns
        ∧ ns !! "extensions"
          = Some (VList [VStr "sphinx.ext.autodoc"; VStr "sphinx.ext.doctest";
                         VStr "sphinx.ext.intersphinx"]).
Proof.
  intros Hv. eexists. split; [by apply exec_conf_success|]. read_final.
Qed.

Lemma extensions_exact_witness :
  versionstr (env_with 2026 "9.0.0") = Some (VStr "9.0.0") ∧
  ∃ ns, exec_conf (env_with 2026 "9.0.0") = inr ns
        ∧ ns !! "extensions"
          = Some (VList [VStr "sphinx.ext.autodoc"; VStr "sphinx.ext.doctest";
                         VStr "sphinx.ext.intersphinx"]).
Proof.
  split; [reflexivity|].
  apply (extensions_exact (env_with 2026 "9.0.0") (VStr "9.0.0")).
  reflexivity.
Defined.

(** C5, as stated, fails: two build machines that differ in the year and in
    the library version both run the file to completion, and the resulting
    [copyright], [version] and [release] differ. *)
Lemma conf_depends_on_build_env :
  ∃ ns1 ns2,
    exec_conf (env_with 2025 "9.0.0") = inr ns1
    ∧ exec_conf (env_with 2026 "9.1.0") = inr ns2
    ∧ ns1 !! "copyright" = Some (VStr "2025, Elasticsearch B.V")
    ∧ ns2 !! "copyright" = Some (VStr "2026, Elasticsearch B.V")
    ∧ ns1 !! "version" = Some (VStr "9.0.0")
    ∧ ns2 !! "version" = Some (VStr "9.1.0")
    ∧ ns1 !! "copyright" ≠ ns2 !! "copyright"
    ∧ ns1 !! "version" ≠ ns2 !! "version"
    ∧ ns1 !! "release" ≠ ns2 !! "release".
Proof.
  eexists _, _.
  split; [by apply (exec_conf_success _ (VStr "9.0.0"))|].
  split; [by apply (exec_conf_success _ (VStr "9.1.0"))|].
  unfold final_ns. simplify_map_eq. repeat split; try done; by intros [=].
Qed.

(** C5, amended: on two build machines where the library version is
    available the file runs to completion on both; every name other than
    [copyright], [version] and [release] has the same value on both, and
    when the year and the library version agree the two namespaces are
    equal. *)
Theorem conf_determined_by_year_and_version env1 env2 v1 v2 :
  versionstr env1 = Some v1 →
  versionstr env2 = Some v2 →
  ∃ ns1 ns2,
    exec_conf env1 = inr ns1
    ∧ exec_conf env2 = inr ns2
    ∧ (∀ k, k ∉ ["copyright"; "version"; "release"] → ns1 !! k = ns2 !! k)
    ∧ (year (today env1) = year (today env2) → v1 = v2 → ns1 = ns2).
Proof.
  intros Hv1 Hv2. eexists _, _.
  split; [by apply exec_conf_success|]. split; [by apply exec_conf_success|].
  split.
  - intros k Hk. rewrite !not_elem_of_cons in Hk. destruct Hk as (Hc & Hve & Hr & _).
    unfold final_ns. rewrite !lookup_insert.
    repeat (case_decide; [by subst k|]). done.
  - by intros -> ->.
Qed.

Lemma conf_determined_by_year_and_version_witness :
  versionstr (env_with 2025 "9.0.0") = Some (VStr "9.0.0") ∧
  versionstr (env_with 2026 "9.1.0") = Some (VStr "9.1.0") ∧
  ∃ ns1 ns2,
    exec_conf (env_with 2025 "9.0.0") = inr ns1
    ∧ exec_conf (env_with 2026 "9.1.0") = inr ns2
    ∧ (∀ k, k ∉ ["copyright"; "version"; "release"] → ns1 !! k = ns2 !! k)
    ∧ (year (today (env_with 2025 "9.0.0")) = year (today (env_with 2026 "9.1.0")) →
       VStr "9.0.0" = VStr "9.1.0" → ns1 = ns2).
Proof.
  split; [reflexivity|]. split; [reflexivity|].
  apply (conf_determined_by_year_and_version
           (env_with 2025 "9.0.0") (env_with 2026 "9.1.0")
           (VStr "9.0.0") (VStr "9.1.0")); reflexivity.
Defined.

(** C6: the file runs to completion exactly when the library's version
    attribute is available, and then every name it declares is bound; when
    the attribute is unavailable the exception of the import or of the
    attribute access escapes. *)
Theorem conf_fails_only_without_versionstr env :
  match versionstr env with
  | Some _ =>
      ∃ ns, exec_conf env = inr ns ∧ Forall (λ k, is_Some (ns !! k)) declared
  | None =>
      exec_conf env = inl (ModuleNotFoundError "elasticsearch")
      ∨ exec_conf env = inl (AttributeError "__versionstr__")
  end.
Proof.
  destruct (versionstr env) as [v|] eqn:Hv.
  - eexists. split; [by apply exec_conf_success|].
    unfold declared. repeat (apply Forall_cons; split; [eexists; read_final|]).
    apply Forall_nil_2.
  - by apply exec_conf_failure.
Qed.

(** C7: every entry of the cross-reference mapping is a pair of a URL
    string and an inventory override that is either [None] or a string. *)
Theorem intersphinx_entries_shape env v :
  versionstr env = Some v →
  ∃ ns d, exec_conf env = inr ns
          ∧ ns !! "intersphinx_mapping" = Some (VDict d)
          ∧ ∀ k e, d !! k = Some e →
              ∃ url inv, e = VTuple [VStr url; inv]
                         ∧ (inv = VNone ∨ ∃ path, inv = VStr path).
Proof.
  intros Hv. eexists _, _. split; [by apply exec_conf_success|].
  split; [read_final|]. rewrite intersphinx_items. intros k e.
  rewrite !lookup_insert, lookup_empty.
  repeat case_decide; intros [= <-]; eauto.
Qed.

Lemma intersphinx_entries_shape_witness :
  versionstr (env_with 2026 "9.0.0") = Some (VStr "9.0.0") ∧
  ∃ ns d, exec_conf (env_with 2026 "9.0.0") = inr ns
          ∧ ns !! "intersphinx_mapping" = Some (VDict d)
          ∧ ∀ k e, d !! k = Some e →
              ∃ url inv, e = VTuple [VStr url; inv]
                         ∧ (inv = VNone ∨ ∃ path, inv = VStr path).
Proof.
  split; [reflexivity|].
  apply (intersphinx_entries_shape (env_with 2026 "9.0.0") (VStr "9.0.0")).
  reflexivity.
Defined.

(** C8: the theme is ["sphinx_rtd_theme"], the only static path is
    ["_static"] and the only extra stylesheet is ["css/custom.css"]. *)
Theorem html_settings_exact env v :
  versionstr env = Some v →
  ∃ ns, exec_conf env = inr ns
        ∧ ns !! "html_theme" = Some (VStr "sphinx_rtd_theme")
        ∧ ns !! "html_static_path" = Some (VList [VStr "_static"])
        ∧ ns !! "html_css_files" = Some (VList [VStr "css/custom.css"]).
Proof.
  intros Hv. eexists. split; [by apply exec_conf_success|]. repeat split; read_final.
Qed.

Lemma html_settings_exact_witness :
  versionstr (env_with 2026 "9.0.0") = Some (VStr "9.0.0") ∧
  ∃ ns, exec_conf (env_with 2026 "9.0.0") = inr ns
        ∧ ns !! "html_theme" = Some (VStr "sphinx_rtd_theme")
        ∧ ns !! "html_static_path" = Some (VList [VStr "_static"])
        ∧ ns !! "html_css_files" = Some (VList [VStr "css/custom.css"]).
Proof.
  split; [reflexivity|].
  apply (html_settings_exact (env_with 2026 "9.0.0") (VStr "9.0.0")).
  reflexivity.
Defined.

(** C9: for every year [y] the copyright string is the decimal numeral of
    [y] followed by [", Elasticsearch B.V"], and nothing else. *)
Theorem copyright_exact env v :
  versionstr env = Some v →
  ∃ ns, exec_conf env = inr ns
        ∧ ns !! "copyright"
          = Some (VStr (decimal (year (today env)) ++ ", Elasticsearch B.V")).
Proof.
  intros Hv. eexists. split; [by apply exec_conf_success|]. read_final.
Qed.

Lemma copyright_exact_witness :
  versionstr (env_with 2026 "9.0.0") = Some (VStr "9.0.0") ∧
  ∃ ns, exec_conf (env_with 2026 "9.0.0") = inr ns
        ∧ ns !! "copyright" = Some (VStr "2026, Elasticsearch B.V").
Proof.
  split; [reflexivity|].
  apply (copyright_exact (env_with 2026 "9.0.0") (VStr "9.0.0")).
  reflexivity.
Defined.

(** C10: [autoclass_content] is ["both"] and [autodoc_typehints] is
    ["description"]. *)
Theorem autodoc_settings_exact env v :
  versionstr env = Some v →
  ∃ ns, exec_conf env = inr ns
        ∧ ns !! "autoclass_content" = Some (VStr "both")
        ∧ ns !! "autodoc_typehints" = Some (VStr "description").
Proof.
  intros Hv. eexists. split; [by apply exec_conf_success|]. split; read_final.
Qed.

Lemma autodoc_settings_exact_witness :
  versionstr (env_with 2026 "9.0.0") = Some (VStr "9.0.0") ∧
  ∃ ns, exec_conf (env_with 2026 "9.0.0") = inr ns
        ∧ ns !! "autoclass_content" = Some (VStr "both")
        ∧ ns !! "autodoc_typehints" = Some (VStr "description").
Proof.
  split; [reflexivity|].
  apply (autodoc_settings_exact (env_with 2026 "9.0.0") (VStr "9.0.0")).
  reflexivity.
Defined.


(** ** Further properties of the file *)

Lemma string_length_app (s t : string) :
  String.length (s ++ t) = String.length s + String.length t.
Proof. induction s as [|c s IH]; simpl; [done|]. by rewrite IH. Qed.

Lemma string_app_cancel_r (s1 s2 t : string) : s1 ++ t = s2 ++ t → s1 = s2.
Proof.
  revert s2. induction s1 as [|c s1 IH]; intros [|c' s2]; simpl; intros H.
  - done.
  - apply (f_equal String.length) in H.
    rewrite !string_length_app in H. simpl in H. lia.
  - apply (f_equal String.length) in H.
    rewrite !string_length_app in H. simpl in H. lia.
  - injection H as -> H. f_equal. by apply IH.
Qed.



(** X1: the settings no other property mentions: the templates path is
    [["_templates"]], the source suffix [".rst"], the master document
    ["index"], the project name ["Python Elasticsearch client"] and the
    Pygments style ["sphinx"], on every build machine where the file runs. *)
Theorem general_settings_exact env v :
  versionstr env = Some v →
  ∃ ns, exec_conf env = inr ns
        ∧ ns !! "templates_path" = Some (VList [VStr "_templates"])
        ∧ ns !! "source_suffix" = Some (VStr ".rst")
        ∧ ns !! "master_doc" = Some (VStr "index")
        ∧ ns !! "project" = Some (VStr "Python Elasticsearch client")
        ∧ ns !! "pygments_style" = Some (VStr "sphinx").
Proof.
  intros Hv. eexists. split; [by apply exec_conf_success|]. repeat split; read_final.
Qed.

Lemma general_settings_exact_witness :
  versionstr (env_with 2026 "9.0.0") = Some (VStr "9.0.0") ∧
  ∃ ns, exec_conf (env_with 2026 "9.0.0") = inr ns
        ∧ ns !! "templates_path" = Some (VList [VStr "_templates"])
        ∧ ns !! "source_suffix" = Some (VStr ".rst")
        ∧ ns !! "master_doc" = Some (VStr "index")
        ∧ ns !! "project" = Some (VStr "Python Elasticsearch client")
        ∧ ns !! "pygments_style" = Some (VStr "sphinx").
Proof.
  split; [reflexivity|].
  apply (general_settings_exact (env_with 2026 "9.0.0") (VStr "9.0.0")).
  reflexivity.
Defined.

(** X2: the file binds the fifteen declared names and the two imported
    module names, and nothing else; the module names are bound to the
    module objects. *)
Theorem conf_binds_exactly env v :
  versionstr env = Some v →
  ∃ ns, exec_conf env = inr ns
        ∧ dom ns = list_to_set ("datetime" :: "elasticsearch" :: declared)
        ∧ ns !! "datetime" = Some (VModule "datetime")
        ∧ ns !! "elasticsearch" = Some (VModule "elasticsearch").
Proof.
  intros Hv. eexists. split; [by apply exec_conf_success|].
  split; [|split; read_final].
  unfold final_ns, declared. rewrite !dom_insert_L, dom_empty_L.
  simpl. set_solver.
Qed.

Lemma conf_binds_exactly_witness :
  versionstr (env_with 2026 "9.0.0") = Some (VStr "9.0.0") ∧
  ∃ ns, exec_conf (env_with 2026 "9.0.0") = inr ns
        ∧ dom ns = list_to_set ("datetime" :: "elasticsearch" :: declared)
        ∧ ns !! "datetime" = Some (VModule "datetime")
        ∧ ns !! "elasticsearch" = Some (VModule "elasticsearch").
Proof.
  split; [reflexivity|].
  apply (conf_binds_exactly (env_with 2026 "9.0.0") (VStr "9.0.0")).
  reflexivity.
Defined.

(** X3: which exception escapes is decided by what is missing: without the
    [elasticsearch] package the import on line 20 raises
    [ModuleNotFoundError]; with the package but without its
    [__versionstr__] attribute line 41 raises [AttributeError]; otherwise
    the file runs to completion. *)
Theorem conf_outcome_by_cause env :
  match site_packages env !! "elasticsearch" with
  | None => exec_conf env = inl (ModuleNotFoundError "elasticsearch")
  | Some attrs =>
      match attrs !! "__versionstr__" with
      | None => exec_conf env = inl (AttributeError "__versionstr__")
      | Some _ => ∃ ns, exec_conf env = inr ns
      end
  end.
Proof.
  destruct (site_packages env !! "elasticsearch") as [attrs|] eqn:Hpkg.
  - destruct (attrs !! "__versionstr__") as [v|] eqn:Hattr.
    + eexists. apply (exec_conf_success _ v). unfold versionstr. by rewrite Hpkg.
    + by apply (exec_conf_no_attr _ attrs).
  - by apply exec_conf_no_package.
Qed.

(** X4: two builds produce the same copyright string exactly when they run
    in the same year; the month, the day and the installed packages play no
    part. *)
Theorem copyright_eq_iff_year env1 env2 v1 v2 :
  versionstr env1 = Some v1 →
  versionstr env2 = Some v2 →
  ∃ ns1 ns2,
    exec_conf env1 = inr ns1
    ∧ exec_conf env2 = inr ns2
    ∧ (ns1 !! "copyright" = ns2 !! "copyright"
       ↔ year (today env1) = year (today env2)).
Proof.
  intros Hv1 Hv2. eexists _, _.
  split; [by apply exec_conf_success|]. split; [by apply exec_conf_success|].
  unfold final_ns. simplify_map_eq. split.
  - intros [= H]. by apply decimal_inj, (string_app_cancel_r _ _ _ H).
  - by intros ->.
Qed.

Lemma copyright_eq_iff_year_witness :
  versionstr (env_with 2026 "9.0.0") = Some (VStr "9.0.0") ∧
  versionstr (BuildEnv (Date 2026 1 31) {[ "elasticsearch" := {[ "__versionstr__" := VStr "9.1.0" ]} ]})
  = Some (VStr "9.1.0") ∧
  ∃ ns1 ns2,
    exec_conf (env_with 2026 "9.0.0") = inr ns1
    ∧ exec_conf (BuildEnv (Date 2026 1 31)
                   {[ "elasticsearch" := {[ "__versionstr__" := VStr "9.1.0" ]} ]})
      = inr ns2
    ∧ (ns1 !! "copyright" = ns2 !! "copyright" ↔ 2026%Z = 2026%Z).
Proof.
  split; [reflexivity|]. split; [reflexivity|].
  apply (copyright_eq_iff_year
           (env_with 2026 "9.0.0")
           (BuildEnv (Date 2026 1 31)
              {[ "elasticsearch" := {[ "__versionstr__" := VStr "9.1.0" ]} ]})
           (VStr "9.0.0") (VStr "9.1.0")); reflexivity.
Defined.

(** X5: the year can be read back from the copyright string: the text in
    front of [", Elasticsearch B.V"] parses as a decimal numeral whose value
    is the year of the build. *)
Theorem copyright_year_reads_back env v :
  versionstr env = Some v →
  ∃ ns s, exec_conf env = inr ns
          ∧ ns !! "copyright" = Some (VStr (s ++ ", Elasticsearch B.V"))
          ∧ parse_decimal s = Some (year (today env)).
Proof.
  intros Hv. eexists _, _. split; [by apply exec_conf_success|].
  split; [read_final|]. apply parse_decimal_decimal.
Qed.

Lemma copyright_year_reads_back_witness :
  versionstr (env_with 2026 "9.0.0") = Some (VStr "9.0.0") ∧
  ∃ ns s, exec_conf (env_with 2026 "9.0.0") = inr ns
          ∧ ns !! "copyright" = Some (VStr (s ++ ", Elasticsearch B.V"))
          ∧ parse_decimal s = Some 2026%Z.
Proof.
  split; [reflexivity|].
  apply (copyright_year_reads_back (env_with 2026 "9.0.0") (VStr "9.0.0")).
  reflexivity.
Defined.




